(** * RDM GitHub release API: a shallow embedding of
      [invenio_rdm_records/services/github/release.py]

    The module is an orchestration layer: it reads two metadata dictionaries,
    talks to the records service, the draft files service and the GitHub
    release base class, and brackets the whole publication in a unit of work
    over the database session.  Dictionaries are [gmap]s keyed by strings,
    Python exceptions are values of [exn], and a method that may raise
    returns a [Result]. *)

From stdpp Require Import gmap strings list fin_maps.

Open Scope string_scope.
Open Scope list_scope.

(** ** Values, exceptions and results *)

(** Scalar JSON values held by metadata documents and by the application
    configuration; this module never looks inside them. *)
Inductive json :=
| JNull
| JBool (b : bool)
| JNum (n : Z)
| JStr (s : string).

(** Python truthiness of a string: only the empty string is falsy. *)
Definition str_truthy (s : string) : bool :=
  match s with
  | EmptyString => false
  | String _ _ => true
  end.

(** Python truthiness of a value. *)
Definition truthy (v : json) : bool :=
  match v with
  | JNull => false
  | JBool b => b
  | JNum n => negb (Z.eqb n 0)
  | JStr s => str_truthy s
  end.

(** Truthiness of the result of [dict.get]: a missing key gives [None],
    which is falsy. *)
Definition get_truthy (o : option json) : bool :=
  match o with
  | Some v => truthy v
  | None => false
  end.

(** Instances of Python's [Exception] that the module can meet.
    [ServiceError] stands for whatever a collaborator raises, told apart by
    its number. *)
Inductive exn :=
| RecordDeletedException
| KeyError (key : string)
| AttributeError
| ServiceError (code : nat).

Inductive Result (A : Type) :=
| Ok (a : A)
| Raise (e : exn).
Arguments Ok {A} a.
Arguments Raise {A} e.

(** ** Records as the services return them *)

Definition UUID := nat.
Definition PidValue := string.
Definition DraftId := string.

(** [record.data]: only the two entries this module reads.  [links] is
    always present in a serialized record, [pids] is read with a default. *)
Record RecordData := {
  links : gmap string string;
  pids : option (gmap string (gmap string string))
}.

(** A record item; [model_id] is [record._record.model.id]. *)
Record RecordItem := {
  model_id : UUID;
  data : RecordData
}.

(** A draft item; the module only reads its [id]. *)
Record Draft := { draft_id : DraftId }.

(** ** Metadata *)

(** [d.update(other)]: every entry of [other] is written into [d], one key
    at a time. *)
Definition dict_update {V} (d other : gmap string V) : gmap string V :=
  map_fold (λ k v acc, <[k:=v]> acc) d other.

(** [RDMGithubRelease.metadata], given the two dictionaries that
    [RDMReleaseMetadata] computes. *)
Definition metadata (default_metadata citation_metadata : gmap string json)
  : gmap string json :=
  let output := default_metadata in
  dict_update output citation_metadata.

(** ** Presentation helpers *)

(** [dict[key]]: raises [KeyError] when the key is missing. *)
Definition getitem {V} (d : gmap string V) (key : string) : Result V :=
  match d !! key with
  | Some v => Ok v
  | None => Raise (KeyError key)
  end.

(** [a or b] where [a] comes from [dict.get]. *)
Definition or_else (a : option string) (b : string) : string :=
  match a with
  | Some s => if str_truthy s then s else b
  | None => b
  end.

(** [RDMGithubRelease.record_url]. *)
Definition record_url (record : RecordItem) : Result string :=
  match getitem (links (data record)) "self_html" with
  | Raise e => Raise e
  | Ok html_url =>
      let doi_url := links (data record) !! "doi" in
      Ok (or_else doi_url html_url)
  end.

(** [RDMGithubRelease.badge_title]; a Python function that falls off its
    end returns [None]. *)
Definition badge_title (config : gmap string json) : option string :=
  if get_truthy (config !! "DATACITE_ENABLED") then Some "DOI" else None.

(** [RDMGithubRelease.badge_value]:
    [data.get("pids", {}).get("doi", {}).get("identifier")]. *)
Definition badge_value (config : gmap string json) (record : RecordItem)
  : option string :=
  if get_truthy (config !! "DATACITE_ENABLED") then
    let pids_ := default ∅ (pids (data record)) in
    let doi := default ∅ (pids_ !! "doi") in
    doi !! "identifier"
  else None.

(** ** The release row, the session and the unit of work *)

(** Modelled from the spec: [ReleaseStatus] of [invenio_github.models], with
    the four states of the release state machine. *)
Inductive ReleaseStatus := RECEIVED | PROCESSING | PUBLISHED | FAILED.

Definition status_eqb (a b : ReleaseStatus) : bool :=
  match a, b with
  | RECEIVED, RECEIVED | PROCESSING, PROCESSING
  | PUBLISHED, PUBLISHED | FAILED, FAILED => true
  | _, _ => false
  end.

(** [release_object]: the two columns of the release row this module
    touches. *)
Record ReleaseObject := {
  status : ReleaseStatus;
  record_id : option UUID
}.

Inductive Identity :=
| system_identity
| user_identity_of (uid : nat).

(** The [data] dictionary handed to [create] and [update_draft]. *)
Record Data := {
  data_metadata : gmap string json;
  access_record : string;
  access_files : string;
  files_enabled : bool
}.

(** The bytes of the release zipball. *)
Definition Stream := string.

(** A change made through the database session: an attribute written on the
    release row, or a mutation a service enrolled in the unit of work. *)
Inductive Mutation :=
| SetStatus (s : ReleaseStatus)
| SetRecordId (u : UUID)
| CreateDraft (i : Identity) (d : Data)
| NewVersion (i : Identity) (pid : PidValue)
| UpdateDraft (i : Identity) (id : DraftId) (d : Data)
| InitFiles (i : Identity) (id : DraftId) (keys : list string)
| SetFileContent (i : Identity) (id : DraftId) (key : string) (content : Stream)
| CommitFile (i : Identity) (id : DraftId) (key : string)
| PublishDraft (i : Identity) (id : DraftId).

(** What an observer of one run sees, in order. *)
Inductive Event :=
| Req (m : Mutation)
| GetMetadata
| TestZipball
| FetchZipball
| CloseZipball
| RetrieveRecid (u : option UUID)
| ReadRecord (i : Identity) (pid : PidValue)
| SessionCommit
| UowCommit
| UowRollback
| LogException (e : exn).

(** Who issued a commit: [db.session.commit()] called directly, or
    [uow.commit()]. *)
Inductive Committer := BySession | ByUow.

Record State := {
  stored : ReleaseObject;
  pending : list Mutation;
  durable : list (Committer * list Mutation);
  trace : list Event
}.

Definition apply_mutation (r : ReleaseObject) (m : Mutation) : ReleaseObject :=
  match m with
  | SetStatus s => {| status := s; record_id := record_id r |}
  | SetRecordId u => {| status := status r; record_id := Some u |}
  | _ => r
  end.

(** Everything committed so far, oldest first. *)
Definition committed (s : State) : list Mutation :=
  concat (map snd (durable s)).

(** The release row as the database holds it. *)
Definition db_release (s : State) : ReleaseObject :=
  foldl apply_mutation (stored s) (committed s).

(** The release row as the session sees it, pending writes included. *)
Definition release_object (s : State) : ReleaseObject :=
  foldl apply_mutation (db_release s) (pending s).

(** Mutations that belong to the records and files services. *)
Definition is_service_mutation (m : Mutation) : bool :=
  match m with
  | SetStatus _ | SetRecordId _ => false
  | _ => true
  end.

(** ** The monad of the module's methods: state and exceptions *)

Definition Py (A : Type) : Type := State → Result A * State.

Definition ret {A} (a : A) : Py A := λ s, (Ok a, s).

Definition bind {A B} (m : Py A) (k : A → Py B) : Py B :=
  λ s, match m s with
       | (Ok a, s') => k a s'
       | (Raise e, s') => (Raise e, s')
       end.

Definition raise {A} (e : exn) : Py A := λ s, (Raise e, s).

(** [try: m  except Exception as ex: handler ex]. *)
Definition try_except {A} (m : Py A) (handler : exn → Py A) : Py A :=
  λ s, match m s with
       | (Ok a, s') => (Ok a, s')
       | (Raise e, s') => handler e s'
       end.

Declare Scope py_scope.
Delimit Scope py_scope with py.
Notation "x <- m ';;' k" := (bind m (λ x, k))
  (at level 100, m at next level, right associativity) : py_scope.
Notation "m ';;' k" := (bind m (λ _, k))
  (at level 100, right associativity) : py_scope.

Definition lift {A} (r : Result A) : Py A := λ s, (r, s).

Definition emit (e : Event) : Py unit :=
  λ s, (Ok tt, {| stored := stored s; pending := pending s;
                  durable := durable s; trace := trace s ++ [e] |}).

Definition enrol (m : Mutation) : Py unit :=
  λ s, (Ok tt, {| stored := stored s; pending := pending s ++ [m];
                  durable := durable s; trace := trace s |}).

Definition gets {A} (f : State → A) : Py A := λ s, (Ok (f s), s).

(** A mutating call: it is observed, the collaborator answers, and only a
    call that returns has its mutation in the session. *)
Definition request {A} (m : Mutation) (outcome : Result A) : Py A :=
  (emit (Req m);; a <- lift outcome;; enrol m;; ret a)%py.

(** A call that changes nothing. *)
Definition query {A} (e : Event) (outcome : Result A) : Py A :=
  (emit e;; lift outcome)%py.

(** ** Collaborators *)

(** What the outside answers during one run.  Every call of a service, of
    the GitHub base class or of a helper either returns or raises; the
    module has no say in which.  [self.user_identity] and
    [self.release_file_name] are attributes of the release API object. *)
Record World := {
  user_identity : Identity;
  release_file_name : string;
  (* RDMReleaseMetadata *)
  default_metadata : Result (gmap string json);
  citation_metadata : Result (gmap string json);
  (* the repository's other releases, latest first *)
  releases : list ReleaseObject;
  (* .utils.retrieve_recid_by_uuid: the [pid_value] of the recid found *)
  recid_by_uuid : option UUID → Result PidValue;
  (* current_rdm_records_service *)
  svc_read : Identity → PidValue → Result RecordItem;
  svc_create : Identity → Data → Result Draft;
  svc_new_version : Identity → PidValue → Result Draft;
  svc_update_draft : Identity → DraftId → Data → Result Draft;
  svc_publish : Identity → DraftId → Result RecordItem;
  (* current_rdm_records_service.draft_files *)
  files_init_files : Identity → DraftId → list string → Result unit;
  files_set_file_content : Identity → DraftId → string → Stream → Result unit;
  files_commit_file : Identity → DraftId → string → Result unit;
  (* GitHubRelease.test_zipball and GitHubRelease.fetch_zipball_file *)
  zipball_test : Result unit;
  zipball_fetch : Result Stream;
  (* whether committing a batch through the unit of work raises *)
  uow_commit_outcome : list Mutation → Result unit
}.

(** Modelled from the spec: [Repository.latest_release(status)] of
    [invenio_github], the latest release of the repository with that
    status, absent when there is none. *)
Definition latest_release (repo : list ReleaseObject) (st : ReleaseStatus)
  : option ReleaseObject :=
  find (λ r, status_eqb (status r) st) repo.

(** Modelled from the spec: [GitHubRelease.is_first_release] of
    [invenio_github]: no prior published release exists for this
    repository. *)
Definition is_first_release (w : World) : bool :=
  match latest_release (releases w) PUBLISHED with
  | Some _ => false
  | None => true
  end.

(** Modelled from the spec: the database session.  A commit makes every
    pending change durable as one batch; a rollback drops the pending
    changes.  The release state machine's own commits are taken not to
    raise. *)
Definition flush (by_ : Committer) : Py unit :=
  λ s, (Ok tt, {| stored := stored s; pending := [];
                  durable := durable s ++ [(by_, pending s)];
                  trace := trace s |}).

(** Modelled from the spec: [db.session.commit()] called by the module
    itself. *)
Definition session_commit : Py unit :=
  (emit SessionCommit;; flush BySession)%py.

(** Modelled from the spec: [session.rollback()], which the unit of work
    calls when its block is left by an exception. *)
Definition session_rollback : Py unit :=
  λ s, (Ok tt, {| stored := stored s; pending := [];
                  durable := durable s; trace := trace s |}).

(** Modelled from the spec: [UnitOfWork.commit] of
    [invenio_records_resources]: commits all pending mutations atomically,
    or raises and commits none. *)
Definition uow_commit (w : World) : Py unit :=
  (emit UowCommit;;
   batch <- gets pending;;
   lift (uow_commit_outcome w batch);;
   flush ByUow)%py.

(** Modelled from the spec: [with UnitOfWork(db.session) as uow: body].
    Leaving the block by an exception rolls the session back and lets the
    exception through; leaving it normally does nothing (the commit is the
    body's own call of [uow.commit()]). *)
Definition with_uow {A} (body : Py A) : Py A :=
  try_except body (λ ex, (emit UowRollback;; session_rollback;; raise ex)%py).

(** Modelled from the spec: [release_processing], [release_published] and
    [release_failed] of [invenio_github]'s [GitHubRelease]: each writes the
    status attribute of the release row. *)
Definition set_status (st : ReleaseStatus) : Py unit :=
  (emit (Req (SetStatus st));; enrol (SetStatus st))%py.

Definition release_processing : Py unit := set_status PROCESSING.
Definition release_published : Py unit := set_status PUBLISHED.
Definition release_failed : Py unit := set_status FAILED.

(** [self.release_object.record_id = u]. *)
Definition set_record_id (u : UUID) : Py unit :=
  (emit (Req (SetRecordId u));; enrol (SetRecordId u))%py.

(** Modelled from the spec: [with self.fetch_zipball_file() as file_stream:
    body], the scoped stream of [invenio_github]'s [GitHubRelease]: opening
    it may raise, and it is closed on every way out of the block. *)
Definition with_zipball_file {A} (w : World) (body : Stream → Py A) : Py A :=
  (file_stream <- query FetchZipball (zipball_fetch w);;
   try_except (a <- body file_stream;; emit CloseZipball;; ret a)
              (λ ex, emit CloseZipball;; raise ex))%py.

(** ** The methods of [RDMGithubRelease] *)

(** The [metadata] property as [publish] evaluates it. *)
Definition self_metadata (w : World) : Py (gmap string json) :=
  (emit GetMetadata;;
   d <- lift (default_metadata w);;
   c <- lift (citation_metadata w);;
   ret (metadata d c))%py.

(** [resolve_record]. *)
Definition resolve_record (w : World) : Py (option RecordItem) :=
  (rid <- gets (λ s, record_id (release_object s));;
   match rid with
   | None => ret None
   | Some u =>
       recid <- query (RetrieveRecid (Some u)) (recid_by_uuid w (Some u));;
       try_except
         (r <- query (ReadRecord system_identity recid)
                     (svc_read w system_identity recid);;
          ret (Some r))
         (λ ex, match ex with
                | RecordDeletedException => ret None
                | _ => raise ex
                end)
   end)%py.

(** [_upload_files_to_draft]. *)
Definition _upload_files_to_draft (w : World) (draft : Draft) : Py unit :=
  (query TestZipball (zipball_test w);;
   request (InitFiles (user_identity w) (draft_id draft) [release_file_name w])
           (files_init_files w (user_identity w) (draft_id draft)
                             [release_file_name w]);;
   with_zipball_file w (λ file_stream,
     request (SetFileContent (user_identity w) (draft_id draft)
                             (release_file_name w) file_stream)
             (files_set_file_content w (user_identity w) (draft_id draft)
                                     (release_file_name w) file_stream)))%py.

(** The [data] dictionary [publish] builds. *)
Definition draft_data (md : gmap string json) : Data :=
  {| data_metadata := md;
     access_record := "public";
     access_files := "public";
     files_enabled := true |}.

(** The [try] block of [publish]. *)
Definition publish_attempt (w : World) : Py RecordItem :=
  (release_processing;;
   (* Commit state change, in case the publishing is stuck *)
   session_commit;;
   with_uow
     (md <- self_metadata w;;
      let data := draft_data md in
      draft <-
        (if is_first_release w then
           draft <- request (CreateDraft (user_identity w) data)
                            (svc_create w (user_identity w) data);;
           _upload_files_to_draft w draft;;
           ret draft
         else
           (* Retrieve latest record id and its recid *)
           latest <- lift (match latest_release (releases w) PUBLISHED with
                           | Some r => Ok r
                           | None => Raise AttributeError
                           end);;
           let latest_record_uuid := record_id latest in
           recid <- query (RetrieveRecid latest_record_uuid)
                          (recid_by_uuid w latest_record_uuid);;
           (* Create a new version and update its contents *)
           new_version_draft <-
             request (NewVersion (user_identity w) recid)
                     (svc_new_version w (user_identity w) recid);;
           _upload_files_to_draft w new_version_draft;;
           request (UpdateDraft (user_identity w) (draft_id new_version_draft) data)
                   (svc_update_draft w (user_identity w)
                                     (draft_id new_version_draft) data));;
      request (CommitFile (user_identity w) (draft_id draft) (release_file_name w))
              (files_commit_file w (user_identity w) (draft_id draft)
                                 (release_file_name w));;
      record <- request (PublishDraft (user_identity w) (draft_id draft))
                        (svc_publish w (user_identity w) (draft_id draft));;
      (* Update release weak reference and set status to PUBLISHED *)
      set_record_id (model_id record);;
      release_published;;
      (* UOW must be committed manually since we're not using the decorator *)
      uow_commit w;;
      ret record))%py.

(** [publish]: the attempt, and on any exception the FAILED marker, its
    commit, and [raise ex]. *)
Definition publish (w : World) : Py RecordItem :=
  try_except (publish_attempt w)
    (λ ex, (release_failed;;
            (* Commit the FAILED state, other changes were already
               rollbacked by the UOW *)
            session_commit;;
            raise ex)%py).

(** [process_release]. *)
Definition process_release (w : World) : Py RecordItem :=
  try_except (record <- publish w;; ret record)%py
    (λ ex, (emit (LogException ex);; raise ex)%py).

(** A run starts from a release row with no change pending. *)
Definition initial_state (r : ReleaseObject) : State :=
  {| stored := r; pending := []; durable := []; trace := [] |}.

(** ** Reading a trace *)

Definition is_files_request (e : Event) : bool :=
  match e with
  | Req (InitFiles _ _ _) | Req (SetFileContent _ _ _ _)
  | Req (CommitFile _ _ _) => true
  | _ => false
  end.

Definition is_records_request (e : Event) : bool :=
  match e with
  | Req (CreateDraft _ _) | Req (NewVersion _ _)
  | Req (UpdateDraft _ _ _) | Req (PublishDraft _ _) => true
  | _ => false
  end.

(** The records-service calls that open a draft. *)
Definition opens_draft (e : Event) : bool :=
  match e with
  | Req (CreateDraft _ _) | Req (NewVersion _ _) => true
  | _ => false
  end.

Definition is_zipball_test (e : Event) : bool :=
  match e with
  | TestZipball => true
  | _ => false
  end.

(** The events that precede the first test of the zipball (all of them
    when it is never tested). *)
Fixpoint before_check (t : list Event) : list Event :=
  match t with
  | [] => []
  | TestZipball :: _ => []
  | e :: t' => e :: before_check t'
  end.

(** No mutating call of either service precedes the test of the zipball. *)
Definition checked_before_mutations (t : list Event) : bool :=
  forallb (λ e, negb (is_records_request e || is_files_request e))
          (before_check t).

(** Every write of the release status is followed at once by a direct
    commit of the session. *)
Fixpoint status_committed_at_once (t : list Event) : bool :=
  match t with
  | [] => true
  | Req (SetStatus _) :: rest =>
      match rest with
      | SessionCommit :: _ => status_committed_at_once rest
      | _ => false
      end
  | _ :: rest => status_committed_at_once rest
  end.

(** No batch committed by the unit of work holds a status write. *)
Definition status_outside_uow (s : State) : bool :=
  forallb (λ c, match c with
                | (ByUow, batch) =>
                    forallb (λ m, match m with
                                  | SetStatus _ => false
                                  | _ => true
                                  end) batch
                | (BySession, _) => true
                end) (durable s).

(** What the code does: PROCESSING and FAILED are followed at once by a
    direct commit of the session, PUBLISHED by the commit of the unit of
    work. *)
Fixpoint status_commit_discipline (t : list Event) : bool :=
  match t with
  | [] => true
  | Req (SetStatus st) :: rest =>
      match st, rest with
      | PUBLISHED, UowCommit :: _ => status_commit_discipline rest
      | PROCESSING, SessionCommit :: _ => status_commit_discipline rest
      | FAILED, SessionCommit :: _ => status_commit_discipline rest
      | _, _ => false
      end
  | _ :: rest => status_commit_discipline rest
  end.

(** The same on the stored batches: a batch committed directly through the
    session holds no PUBLISHED status, a batch committed by the unit of work
    holds no PROCESSING and no FAILED status. *)
Definition status_batch_discipline (c : Committer * list Mutation) : bool :=
  forallb (λ m, match m, fst c with
                | SetStatus PUBLISHED, BySession => false
                | SetStatus PROCESSING, ByUow => false
                | SetStatus FAILED, ByUow => false
                | SetStatus RECEIVED, _ => false
                | _, _ => true
                end) (snd c).

(** ** Sample collaborators, used to run the model *)

Module Sample.

Definition descriptive : gmap string json :=
  {[ "title" := JStr "owner/repo: v1.0"; "version" := JStr "v1.0" ]}.

Definition citation : gmap string json :=
  {[ "title" := JStr "My software"; "publisher" := JStr "Zenodo" ]}.

Definition published_record : RecordItem :=
  {| model_id := 42;
     data := {| links := {[ "self_html" := "https://repo.example/records/abc" ]};
                pids := None |} |}.

(** Collaborators that succeed, except where an argument says otherwise:
    the repository's earlier releases, and what reading a record, testing
    the zipball and committing the unit of work answer. *)
Definition world (earlier : list ReleaseObject)
    (read : Result RecordItem) (test commit : Result unit) : World :=
  {| user_identity := user_identity_of 7;
     release_file_name := "owner/repo-v1.0.zip";
     default_metadata := Ok descriptive;
     citation_metadata := Ok citation;
     releases := earlier;
     recid_by_uuid := λ _, Ok "abc";
     svc_read := λ _ _, read;
     svc_create := λ _ _, Ok {| draft_id := "d1" |};
     svc_new_version := λ _ _, Ok {| draft_id := "d2" |};
     svc_update_draft := λ _ id _, Ok {| draft_id := id |};
     svc_publish := λ _ _, Ok published_record;
     files_init_files := λ _ _ _, Ok tt;
     files_set_file_content := λ _ _ _ _, Ok tt;
     files_commit_file := λ _ _ _, Ok tt;
     zipball_test := test;
     zipball_fetch := Ok "PK";
     uow_commit_outcome := λ _, commit |}.

(** The first release of a repository; everything succeeds. *)
Definition first : World := world [] (Ok published_record) (Ok tt) (Ok tt).

(** A later release: release 41 of the repository is published already. *)
Definition later : World :=
  world [ {| status := FAILED; record_id := None |};
          {| status := PUBLISHED; record_id := Some 41 |} ]
        (Ok published_record) (Ok tt) (Ok tt).

(** The zipball of the release cannot be fetched. *)
Definition unfetchable : World :=
  world [] (Ok published_record) (Raise (ServiceError 404)) (Ok tt).

(** Committing the unit of work fails. *)
Definition uncommittable : World :=
  world [] (Ok published_record) (Ok tt) (Raise (ServiceError 500)).

(** The record behind the release is a tombstone. *)
Definition tombstoned : World :=
  world [] (Raise RecordDeletedException) (Ok tt) (Ok tt).

Definition received : ReleaseObject :=
  {| status := RECEIVED; record_id := None |}.

(** A session holding a published release linked to record 42. *)
Definition linked : State :=
  initial_state {| status := PUBLISHED; record_id := Some 42 |}.

End Sample.

(** Sample configurations and records for the presentation helpers. *)
Module Helpers.

(** DataCite switched off in the configuration. *)
Definition datacite_off : gmap string json :=
  {[ "DATACITE_ENABLED" := JBool false ]}.

Definition datacite_on : gmap string json :=
  {[ "DATACITE_ENABLED" := JBool true ]}.

(** A record with an externally managed DOI. *)
Definition with_doi : RecordItem :=
  {| model_id := 1;
     data := {| links := {[ "self_html" := "https://repo.example/records/abc";
                            "doi" := "https://doi.org/10.1234/abc" ]};
                pids := Some {[ "doi" := {[ "identifier" := "10.1234/abc";
                                            "provider" := "external" ]} ]} |} |}.

(** A record whose pids hold no DOI. *)
Definition without_doi : RecordItem :=
  {| model_id := 2;
     data := {| links := {[ "self_html" := "https://repo.example/records/xyz" ]};
                pids := Some {[ "oai" := {[ "identifier" := "oai:repo:xyz" ]} ]} |} |}.

End Helpers.

(** The record has no DOI identifier among its pids. *)
Definition carries_no_doi_identifier (record : RecordItem) : Prop :=
  ∀ ps doi, pids (data record) = Some ps → ps !! "doi" = Some doi →
            doi !! "identifier" = None.

(** ** More ways to read a trace *)

(** The identity a call of a service is made under. *)
Definition request_identity (e : Event) : option Identity :=
  match e with
  | Req (CreateDraft i _) | Req (NewVersion i _) | Req (UpdateDraft i _ _)
  | Req (InitFiles i _ _) | Req (SetFileContent i _ _ _)
  | Req (CommitFile i _ _) | Req (PublishDraft i _) => Some i
  | ReadRecord i _ => Some i
  | _ => None
  end.

(** The [data] dictionary a call of the records service carries. *)
Definition request_data (e : Event) : option Data :=
  match e with
  | Req (CreateDraft _ d) | Req (UpdateDraft _ _ d) => Some d
  | _ => None
  end.

(** The file keys a call of the files service names. *)
Definition request_keys (e : Event) : option (list string) :=
  match e with
  | Req (InitFiles _ _ keys) => Some keys
  | Req (SetFileContent _ _ key _) | Req (CommitFile _ _ key) => Some [key]
  | _ => None
  end.

Definition is_fetch (e : Event) : bool :=
  match e with
  | FetchZipball => true
  | _ => false
  end.

Definition is_close (e : Event) : bool :=
  match e with
  | CloseZipball => true
  | _ => false
  end.

(** The events of the status markers and of the session: status writes
    other than PUBLISHED, direct commits, rollbacks and log entries. *)
Definition is_marker (e : Event) : bool :=
  match e with
  | Req (SetStatus PUBLISHED) => false
  | Req (SetStatus _) | SessionCommit | UowRollback | LogException _ => true
  | _ => false
  end.

(** The two calls [resolve_record] may make. *)
Definition is_lookup (e : Event) : bool :=
  match e with
  | RetrieveRecid _ | ReadRecord system_identity _ => true
  | _ => false
  end.

(** What a failing run of [publish] ends with. *)
Definition failure_epilogue {A} (r : Result A) : list Event :=
  match r with
  | Ok _ => []
  | Raise _ => [UowRollback; Req (SetStatus FAILED); SessionCommit]
  end.

(** Whether a call returned. *)
Definition returned {A} (r : Result A) : bool :=
  match r with
  | Ok _ => true
  | Raise _ => false
  end.

(** The status a run of [publish] leaves in the database. *)
Definition terminal_status {A} (r : Result A) : ReleaseStatus :=
  match r with
  | Ok _ => PUBLISHED
  | Raise _ => FAILED
  end.

(** Collaborators changed in one answer. *)
Module Faults.

(** The world [w] with other answers of [RDMReleaseMetadata]. *)
Definition with_metadata (dm cm : Result (gmap string json)) (w : World)
  : World :=
  {| user_identity := user_identity w;
     release_file_name := release_file_name w;
     default_metadata := dm;
     citation_metadata := cm;
     releases := releases w;
     recid_by_uuid := recid_by_uuid w;
     svc_read := svc_read w;
     svc_create := svc_create w;
     svc_new_version := svc_new_version w;
     svc_update_draft := svc_update_draft w;
     svc_publish := svc_publish w;
     files_init_files := files_init_files w;
     files_set_file_content := files_set_file_content w;
     files_commit_file := files_commit_file w;
     zipball_test := zipball_test w;
     zipball_fetch := zipball_fetch w;
     uow_commit_outcome := uow_commit_outcome w |}.

(** The world [w] with another recid lookup. *)
Definition with_recid (f : option UUID → Result PidValue) (w : World)
  : World :=
  {| user_identity := user_identity w;
     release_file_name := release_file_name w;
     default_metadata := default_metadata w;
     citation_metadata := citation_metadata w;
     releases := releases w;
     recid_by_uuid := f;
     svc_read := svc_read w;
     svc_create := svc_create w;
     svc_new_version := svc_new_version w;
     svc_update_draft := svc_update_draft w;
     svc_publish := svc_publish w;
     files_init_files := files_init_files w;
     files_set_file_content := files_set_file_content w;
     files_commit_file := files_commit_file w;
     zipball_test := zipball_test w;
     zipball_fetch := zipball_fetch w;
     uow_commit_outcome := uow_commit_outcome w |}.

(** The world [w] with another answer of the read of a record. *)
Definition with_read (r : Result RecordItem) (w : World) : World :=
  {| user_identity := user_identity w;
     release_file_name := release_file_name w;
     default_metadata := default_metadata w;
     citation_metadata := citation_metadata w;
     releases := releases w;
     recid_by_uuid := recid_by_uuid w;
     svc_read := λ _ _, r;
     svc_create := svc_create w;
     svc_new_version := svc_new_version w;
     svc_update_draft := svc_update_draft w;
     svc_publish := svc_publish w;
     files_init_files := files_init_files w;
     files_set_file_content := files_set_file_content w;
     files_commit_file := files_commit_file w;
     zipball_test := zipball_test w;
     zipball_fetch := zipball_fetch w;
     uow_commit_outcome := uow_commit_outcome w |}.

(** No citation file: the metadata of the release cannot be read. *)
Definition no_metadata : World :=
  with_metadata (Raise (ServiceError 422)) (Ok ∅) Sample.first.

(** The recid of the latest published release cannot be found. *)
Definition no_recid : World :=
  with_recid (λ _, Raise (ServiceError 404)) Sample.later.

(** Even a [RecordDeletedException] of the recid lookup. *)
Definition deleted_recid : World :=
  with_recid (λ _, Raise RecordDeletedException) Sample.first.

(** Reading the record is refused. *)
Definition forbidden_read : World :=
  with_read (Raise (ServiceError 403)) Sample.first.

(** A record whose links lack the HTML link. *)
Definition doi_only : RecordItem :=
  {| model_id := 3;
     data := {| links := {[ "doi" := "https://doi.org/10.1234/abc" ]};
                pids := None |} |}.

(** A record whose DOI link is the empty string. *)
Definition empty_doi : RecordItem :=
  {| model_id := 4;
     data := {| links := {[ "self_html" := "https://repo.example/records/e";
                            "doi" := "" ]};
                pids := None |} |}.

End Faults.

(** ** Tactics for symbolic runs *)

(** Unfold the methods and the monad down to the collaborators' answers. *)
Ltac py_unfold :=
  cbv [publish process_release publish_attempt _upload_files_to_draft
       self_metadata with_uow with_zipball_file uow_commit session_commit
       session_rollback flush release_processing release_published
       release_failed set_status set_record_id request query gets enrol emit
       lift try_except raise bind ret is_first_release
       stored pending durable trace].

(** Split on the next answer the run depends on. *)
Ltac py_step :=
  match goal with
  | |- context [latest_release ?l ?st] =>
      destruct (latest_release l st) eqn:?
  | |- context [match ?x with Ok _ => _ | Raise _ => _ end] =>
      destruct x eqn:?
  end.

Ltac py_run := py_unfold; repeat py_step.

(** Check a property on every event of an explicit trace. *)
Ltac each_event tac :=
  repeat (apply Forall_cons_2; [tac|]); apply Forall_nil_2.

(** * Properties *)

(** ** Metadata merge *)

Lemma dict_update_union {V} (d other : gmap string V) :
  dict_update d other = other ∪ d.
Proof.
  unfold dict_update.
  apply (map_fold_weak_ind (λ r m, r = m ∪ d)).
  - by rewrite (left_id_L ∅ (∪)).
  - intros k v m r _ ->. by rewrite insert_union_l.
Qed.

Lemma dict_update_lookup {V} (d other : gmap string V) (k : string) :
  dict_update d other !! k =
  match other !! k with
  | Some v => Some v
  | None => d !! k
  end.
Proof.
  rewrite dict_update_union, lookup_union.
  destruct (other !! k), (d !! k); reflexivity.
Qed.

(** C9: the metadata document is the default (descriptive) metadata
    updated with the citation metadata: a key the citation metadata has
    carries the citation value, whatever the default metadata says, and
    any other key carries the default value. *)
Theorem metadata_citation_wins (dm cm : gmap string json) (k : string) :
  metadata dm cm !! k =
  match cm !! k with
  | Some v => Some v
  | None => dm !! k
  end.
Proof. unfold metadata. apply dict_update_lookup. Qed.

Example metadata_sample_title :
  metadata Sample.descriptive Sample.citation !! "title" = Some (JStr "My software").
Proof. unfold metadata. rewrite dict_update_lookup. reflexivity. Qed.

Example metadata_sample_version :
  metadata Sample.descriptive Sample.citation !! "version" = Some (JStr "v1.0").
Proof. unfold metadata. rewrite dict_update_lookup. reflexivity. Qed.

(** ** Presentation helpers *)

(** C6, at an input where the code departs from it: with DataCite switched
    off (so that [badge_title] is absent) and a record that carries a DOI
    link, [record_url] is the DOI link and not the record's HTML URL. *)
Theorem record_url_ignores_datacite_flag :
  get_truthy (Helpers.datacite_off !! "DATACITE_ENABLED") = false ∧
  badge_title Helpers.datacite_off = None ∧
  record_url Helpers.with_doi = Ok "https://doi.org/10.1234/abc" ∧
  getitem (links (data Helpers.with_doi)) "self_html"
    = Ok "https://repo.example/records/abc".
Proof. repeat split; reflexivity. Qed.

(** What [record_url] does decide on: the record's own links. *)
Lemma record_url_spec (record : RecordItem) (html : string) :
  links (data record) !! "self_html" = Some html →
  record_url record =
  Ok (match links (data record) !! "doi" with
      | Some doi => if str_truthy doi then doi else html
      | None => html
      end).
Proof. intros H. unfold record_url, getitem. rewrite H. reflexivity. Qed.

(** C10: with the DataCite flag on, the badge title is "DOI" and the badge
    value of a record without a DOI identifier is absent; with the flag off
    both are absent. *)
Theorem badge_title_and_value (config : gmap string json) (record : RecordItem)
    (enabled : bool) :
  get_truthy (config !! "DATACITE_ENABLED") = enabled →
  badge_title config = (if enabled then Some "DOI" else None) ∧
  (if enabled
   then carries_no_doi_identifier record → badge_value config record = None
   else badge_value config record = None).
Proof.
  intros Hflag. unfold badge_title, badge_value. rewrite Hflag.
  split; [reflexivity|]. destruct enabled; [|reflexivity].
  intros Hno. destruct (pids (data record)) as [ps|] eqn:Hps; simpl.
  - destruct (ps !! "doi") as [doi|] eqn:Hdoi; simpl.
    + exact (Hno ps doi Hps Hdoi).
    + apply lookup_empty.
  - rewrite lookup_empty. simpl. apply lookup_empty.
Qed.

(** The badge title is present while the badge value is absent. *)
Lemma badge_title_and_value_witness :
  badge_title Helpers.datacite_on = Some "DOI" ∧
  badge_value Helpers.datacite_on Helpers.without_doi = None.
Proof.
  destruct (badge_title_and_value Helpers.datacite_on Helpers.without_doi true)
    as [Ht Hv]; [reflexivity|].
  split; [exact Ht | apply Hv].
  intros ps doi Hps Hdoi. simpl in Hps. injection Hps as <-.
  vm_compute in Hdoi. discriminate.
Defined.

(** ** Resolving the record of a release *)

(** C7: when the release is linked to a record and reading that record
    raises [RecordDeletedException], [resolve_record] returns [None] and
    raises nothing. *)
Theorem resolve_record_deleted (w : World) (s : State) (u : UUID)
    (recid : PidValue) :
  record_id (release_object s) = Some u →
  recid_by_uuid w (Some u) = Ok recid →
  svc_read w system_identity recid = Raise RecordDeletedException →
  fst (resolve_record w s) = Ok None.
Proof.
  intros Hlink Hpid Hread.
  unfold resolve_record, bind, gets, query, try_except, lift, emit, ret.
  rewrite Hlink. simpl. rewrite Hpid. simpl. rewrite Hread. reflexivity.
Qed.

Lemma resolve_record_deleted_witness :
  fst (resolve_record Sample.tombstoned Sample.linked) = Ok None.
Proof.
  apply (resolve_record_deleted Sample.tombstoned Sample.linked 42 "abc");
    reflexivity.
Defined.

(** Any other exception of the read is not swallowed. *)
Lemma resolve_record_other_error (w : World) (s : State) (u : UUID)
    (recid : PidValue) (e : exn) :
  record_id (release_object s) = Some u →
  recid_by_uuid w (Some u) = Ok recid →
  svc_read w system_identity recid = Raise e →
  e ≠ RecordDeletedException →
  fst (resolve_record w s) = Raise e.
Proof.
  intros Hlink Hpid Hread Hne.
  unfold resolve_record, bind, gets, query, try_except, lift, emit, ret, raise.
  rewrite Hlink. simpl. rewrite Hpid. simpl. rewrite Hread.
  destruct e; try reflexivity. congruence.
Qed.

(** C8: a release without record linkage resolves to [None], and the run
    leaves the state as it found it: its trace gains no event, so neither
    the records service nor the recid lookup was called. *)
Theorem resolve_record_no_linkage (w : World) (s : State) :
  record_id (release_object s) = None →
  resolve_record w s = (Ok None, s) ∧
  trace (snd (resolve_record w s)) = trace s.
Proof.
  intros Hnone.
  assert (resolve_record w s = (Ok None, s)) as ->; [|done].
  unfold resolve_record, bind, gets, ret. rewrite Hnone. reflexivity.
Qed.

Lemma resolve_record_no_linkage_witness :
  resolve_record Sample.first (initial_state Sample.received)
    = (Ok None, initial_state Sample.received) ∧
  trace (snd (resolve_record Sample.first (initial_state Sample.received))) = [].
Proof.
  apply (resolve_record_no_linkage Sample.first (initial_state Sample.received)).
  reflexivity.
Defined.

(** ** Publishing: symbolic runs *)

Lemma is_first_release_true (w : World) :
  is_first_release w = true ↔ latest_release (releases w) PUBLISHED = None.
Proof.
  unfold is_first_release.
  destruct (latest_release (releases w) PUBLISHED); split; congruence.
Qed.

Lemma latest_release_none (repo : list ReleaseObject) :
  latest_release repo PUBLISHED = None ↔
  Forall (λ r, status r ≠ PUBLISHED) repo.
Proof.
  unfold latest_release. induction repo as [|r repo IH]; simpl.
  - split; [constructor | reflexivity].
  - rewrite Forall_cons. destruct (status r); simpl; rewrite ?IH;
      split; intros H; try discriminate; try (split; [discriminate | tauto]);
      tauto.
Qed.

(** A failed attempt leaves the session clean and the database with the
    PROCESSING marker as its only new batch. *)
Lemma publish_attempt_raise (w : World) (s s1 : State) (e : exn) :
  publish_attempt w s = (Raise e, s1) →
  stored s1 = stored s ∧
  pending s1 = [] ∧
  durable s1 = durable s ++ [(BySession, pending s ++ [SetStatus PROCESSING])].
Proof.
  destruct s as [st pe du tr]. py_run;
    intros [= <- <-]; py_unfold; repeat split; reflexivity.
Qed.

(** C1: when the publish attempt raises [e], [publish] raises that same
    [e], and so does [process_release]; nothing is left pending, the only
    batches the database gained are the PROCESSING marker and the FAILED
    marker, each committed directly through the session, so no mutation
    enrolled in the unit of work is durable; and the stored release row is
    FAILED with the linkage it had before. *)
Theorem publish_failure_policy (w : World) (s s1 : State) (e : exn) :
  publish_attempt w s = (Raise e, s1) →
  ∃ s', publish w s = (Raise e, s') ∧
        fst (process_release w s) = Raise e ∧
        pending s' = [] ∧
        durable s' = durable s ++
          [(BySession, pending s ++ [SetStatus PROCESSING]);
           (BySession, [SetStatus FAILED])] ∧
        db_release s' = {| status := FAILED;
                           record_id := record_id (release_object s) |}.
Proof.
  intros Hattempt.
  destruct (publish_attempt_raise w s s1 e Hattempt) as (Hst & Hpe & Hdu).
  destruct s1 as [st1 pe1 du1 tr1]. simpl in Hst, Hpe, Hdu. subst st1 pe1 du1.
  destruct s as [st pe du tr]. cbn [stored pending durable] in *.
  eassert (publish w _ = (Raise e, _)) as Hpub.
  { unfold publish, try_except. rewrite Hattempt. py_unfold. reflexivity. }
  eexists. split; [exact Hpub|].
  split; [unfold process_release, try_except, bind; by rewrite Hpub|].
  split; [reflexivity|].
  split; [cbn; by rewrite <- app_assoc|].
  unfold release_object, db_release, committed; cbn [stored durable pending].
  rewrite !map_app, !concat_app, !foldl_app. cbn.
  rewrite app_nil_r, foldl_app. reflexivity.
Qed.

Lemma publish_failure_policy_witness :
  ∃ s', publish Sample.unfetchable (initial_state Sample.received)
          = (Raise (ServiceError 404), s') ∧
        fst (process_release Sample.unfetchable (initial_state Sample.received))
          = Raise (ServiceError 404) ∧
        pending s' = [] ∧
        durable s' = [(BySession, [SetStatus PROCESSING]);
                      (BySession, [SetStatus FAILED])] ∧
        db_release s' = {| status := FAILED; record_id := None |}.
Proof.
  eapply (publish_failure_policy Sample.unfetchable
            (initial_state Sample.received)).
  vm_compute. reflexivity.
Defined.

(** The exception [publish] raises is never one of its own making. *)
Lemma publish_raise_inv (w : World) (s s' : State) (e : exn) :
  publish w s = (Raise e, s') → ∃ s1, publish_attempt w s = (Raise e, s1).
Proof.
  unfold publish, try_except.
  destruct (publish_attempt w s) as [[r|e1] s1]; [discriminate|].
  py_unfold. intros [= <- _]. by eexists.
Qed.

(** C2: after a successful [publish] the database has gained two batches.
    The first, committed directly through the session, holds what was
    pending at entry and the PROCESSING marker.  The second is the one
    commit of the unit of work: it ends with the publish request, the
    record linkage and the PUBLISHED status, after the service mutations
    enrolled before them.  Nothing stays pending, and the stored release
    row is PUBLISHED and linked to the record returned. *)
Theorem publish_success_commit (w : World) (s s' : State) (r : RecordItem) :
  publish w s = (Ok r, s') →
  ∃ enrolled id,
    durable s' = durable s ++
      [(BySession, pending s ++ [SetStatus PROCESSING]);
       (ByUow, enrolled ++ [PublishDraft (user_identity w) id;
                            SetRecordId (model_id r);
                            SetStatus PUBLISHED])] ∧
    forallb is_service_mutation enrolled = true ∧
    pending s' = [] ∧
    db_release s' = {| status := PUBLISHED; record_id := Some (model_id r) |}.
Proof.
  destruct s as [st pe du tr]. py_run; intros [= <- <-]; py_unfold;
    cbn [app]; rewrite <- app_assoc; cbn [app];
    match goal with
    | |- context [(ByUow, ?l)] => exists (take (length l - 3) l)
    end; cbn [length Nat.sub take];
    eexists; (split; [reflexivity|]); (split; [reflexivity|]);
    (split; [reflexivity|]);
    unfold db_release, committed; cbn [stored durable];
    rewrite !map_app, !concat_app, !foldl_app; cbn;
    rewrite ?app_nil_r, ?foldl_app; reflexivity.
Qed.

Lemma publish_success_commit_witness :
  ∃ enrolled id,
    durable (snd (publish Sample.first (initial_state Sample.received))) =
      [(BySession, [SetStatus PROCESSING]);
       (ByUow, enrolled ++ [PublishDraft (user_identity_of 7) id;
                            SetRecordId 42;
                            SetStatus PUBLISHED])] ∧
    forallb is_service_mutation enrolled = true ∧
    pending (snd (publish Sample.first (initial_state Sample.received))) = [] ∧
    db_release (snd (publish Sample.first (initial_state Sample.received)))
      = {| status := PUBLISHED; record_id := Some 42 |}.
Proof.
  apply (publish_success_commit Sample.first (initial_state Sample.received)
           (snd (publish Sample.first (initial_state Sample.received)))
           Sample.published_record).
  vm_compute. reflexivity.
Defined.

(** C3: in a successful [publish] the collaborators are called in one of
    two fixed orders.  With no published release in the repository: a
    draft is created with the metadata document and the default policy
    (record and files public, files enabled), and the file goes into that
    draft.  With a published release: the record id of the latest one is
    resolved to its recid, a new version of that recid is requested, the
    file goes into the new-version draft, and that draft is then updated
    with the same data.  Either way the file of the resulting draft is
    committed, the draft is published, and the release is linked and
    marked PUBLISHED. *)
Theorem publish_lineage (w : World) (s s' : State) (r : RecordItem) :
  publish w s = (Ok r, s') →
  ∃ d c stream draft,
    default_metadata w = Ok d ∧ citation_metadata w = Ok c ∧
    zipball_fetch w = Ok stream ∧
    svc_publish w (user_identity w) (draft_id draft) = Ok r ∧
    let data := {| data_metadata := metadata d c;
                   access_record := "public";
                   access_files := "public";
                   files_enabled := true |} in
    let uid := user_identity w in
    let key := release_file_name w in
    match latest_release (releases w) PUBLISHED with
    | None =>
        svc_create w uid data = Ok draft ∧
        trace s' = trace s ++
          [Req (SetStatus PROCESSING); SessionCommit; GetMetadata;
           Req (CreateDraft uid data);
           TestZipball;
           Req (InitFiles uid (draft_id draft) [key]);
           FetchZipball;
           Req (SetFileContent uid (draft_id draft) key stream);
           CloseZipball;
           Req (CommitFile uid (draft_id draft) key);
           Req (PublishDraft uid (draft_id draft));
           Req (SetRecordId (model_id r));
           Req (SetStatus PUBLISHED); UowCommit]
    | Some latest =>
        ∃ recid new_version_draft,
          recid_by_uuid w (record_id latest) = Ok recid ∧
          svc_new_version w uid recid = Ok new_version_draft ∧
          svc_update_draft w uid (draft_id new_version_draft) data = Ok draft ∧
          trace s' = trace s ++
            [Req (SetStatus PROCESSING); SessionCommit; GetMetadata;
             RetrieveRecid (record_id latest);
             Req (NewVersion uid recid);
             TestZipball;
             Req (InitFiles uid (draft_id new_version_draft) [key]);
             FetchZipball;
             Req (SetFileContent uid (draft_id new_version_draft) key stream);
             CloseZipball;
             Req (UpdateDraft uid (draft_id new_version_draft) data);
             Req (CommitFile uid (draft_id draft) key);
             Req (PublishDraft uid (draft_id draft));
             Req (SetRecordId (model_id r));
             Req (SetStatus PUBLISHED); UowCommit]
    end.
Proof.
  destruct s as [st pe du tr]. intros Hrun.
  destruct (latest_release (releases w) PUBLISHED) as [latest|] eqn:Hlatest;
    revert Hrun; py_unfold; rewrite Hlatest; repeat py_step;
    intros [= <- <-]; py_unfold; rewrite <- ?app_assoc; cbn [app];
    repeat match goal with
           | u : unit |- _ => destruct u
           end;
    do 4 eexists;
    repeat (split; [first [reflexivity | eassumption]|]); cbv zeta.
  - do 2 eexists.
    repeat (split; [first [reflexivity | eassumption]|]). reflexivity.
  - reflexivity.
Qed.

Lemma publish_lineage_witness :
  trace (snd (publish Sample.later (initial_state Sample.received))) =
    [Req (SetStatus PROCESSING); SessionCommit; GetMetadata;
     RetrieveRecid (Some 41);
     Req (NewVersion (user_identity_of 7) "abc");
     TestZipball;
     Req (InitFiles (user_identity_of 7) "d2" ["owner/repo-v1.0.zip"]);
     FetchZipball;
     Req (SetFileContent (user_identity_of 7) "d2" "owner/repo-v1.0.zip" "PK");
     CloseZipball;
     Req (UpdateDraft (user_identity_of 7) "d2"
            (draft_data (metadata Sample.descriptive Sample.citation)));
     Req (CommitFile (user_identity_of 7) "d2" "owner/repo-v1.0.zip");
     Req (PublishDraft (user_identity_of 7) "d2");
     Req (SetRecordId 42);
     Req (SetStatus PUBLISHED); UowCommit].
Proof.
  destruct (publish_lineage Sample.later (initial_state Sample.received)
              (snd (publish Sample.later (initial_state Sample.received)))
              Sample.published_record)
    as (d & c & stream & draft & Hd & Hc & Hs & _ & H);
    [vm_compute; reflexivity|].
  cbv zeta in H.
  change (latest_release (releases Sample.later) PUBLISHED)
    with (Some {| status := PUBLISHED; record_id := Some 41 |}) in H.
  destruct H as (recid & nv & Hrecid & Hnv & Hupd & Ht).
  injection Hd as <-. injection Hc as <-. injection Hs as <-.
  injection Hrecid as <-. injection Hnv as <-. injection Hupd as <-.
  exact Ht.
Defined.

(** The two branches never mix: a run on a repository without published
    release, whatever its outcome, requests no new version and no draft
    update, and a run on a repository with one requests no creation. *)
Lemma publish_branch_requests (w : World) (s : State) :
  ∃ t, trace (snd (publish w s)) = trace s ++ t ∧
       if is_first_release w
       then existsb (λ e, match e with
                          | Req (NewVersion _ _) | Req (UpdateDraft _ _ _) => true
                          | _ => false
                          end) t = false
       else existsb (λ e, match e with
                          | Req (CreateDraft _ _) => true
                          | _ => false
                          end) t = false.
Proof.
  destruct s as [st pe du tr]. py_run; py_unfold; cbn [snd];
    rewrite <- ?app_assoc; cbn [app]; eexists; (split; [reflexivity|]);
    reflexivity.
Qed.

(** C4, as the code has it: in every run of [publish], the PROCESSING and
    the FAILED status are each written and at once committed directly
    through the session, while the PUBLISHED status is written inside the
    unit of work and committed by the commit of the unit of work, which is
    the next step.  The stored batches agree: after the directly committed
    batch of the PROCESSING marker, a batch of the session holds no
    PUBLISHED status and a batch of the unit of work holds no other
    status. *)
Theorem publish_status_commits (w : World) (s : State) :
  ∃ t batches,
    trace (snd (publish w s)) = trace s ++ t ∧
    status_commit_discipline t = true ∧
    durable (snd (publish w s)) = durable s ++
      (BySession, pending s ++ [SetStatus PROCESSING]) :: batches ∧
    forallb status_batch_discipline batches = true.
Proof.
  destruct s as [st pe du tr]. py_run; py_unfold; cbn [snd];
    rewrite <- ?app_assoc; cbn [app]; do 2 eexists;
    (split; [reflexivity|]); (split; [reflexivity|]);
    (split; [reflexivity|]); reflexivity.
Qed.

(** C4 fails as stated.  In the successful run of the first sample the
    PUBLISHED status is not followed by a direct commit and reaches the
    database in the batch of the unit of work; and when that commit fails
    the PUBLISHED status was written but is never stored. *)
Lemma status_not_committed_at_once :
  status_committed_at_once
    (trace (snd (publish Sample.first (initial_state Sample.received)))) = false ∧
  status_outside_uow
    (snd (publish Sample.first (initial_state Sample.received))) = false ∧
  existsb (λ e, match e with Req (SetStatus PUBLISHED) => true | _ => false end)
    (trace (snd (publish Sample.uncommittable (initial_state Sample.received))))
    = true ∧
  existsb (λ m, match m with SetStatus PUBLISHED => true | _ => false end)
    (committed (snd (publish Sample.uncommittable (initial_state Sample.received))))
    = false.
Proof. vm_compute. repeat split. Qed.

(** C5, as the code has it: in every run of [publish] no call of the files
    service precedes the test of the zipball; when the zipball is tested,
    exactly one mutating call of the records service precedes the test,
    the one that opens the draft (create, or new version); and when the
    test raises, [publish] raises that exception and the database gains
    the PROCESSING and FAILED markers and nothing else, the draft having
    been discarded with the unit of work. *)
Theorem fetch_check_order (w : World) (s : State) :
  ∃ t, trace (snd (publish w s)) = trace s ++ t ∧
       filter is_files_request (before_check t) = [] ∧
       (existsb is_zipball_test t = true →
        (∃ e, filter is_records_request (before_check t) = [e] ∧
              opens_draft e = true) ∧
        ∀ ex, zipball_test w = Raise ex →
              fst (publish w s) = Raise ex ∧
              durable (snd (publish w s)) = durable s ++
                [(BySession, pending s ++ [SetStatus PROCESSING]);
                 (BySession, [SetStatus FAILED])]).
Proof.
  destruct s as [st pe du tr]. py_run; py_unfold; cbn [fst snd];
    rewrite <- ?app_assoc; cbn [app]; eexists; (split; [reflexivity|]);
    (split; [reflexivity|]); cbn; intros Hchecked; try discriminate;
    (split; [eexists; split; reflexivity|]); intros ex [= <-];
    (split; [reflexivity|]); rewrite <- ?app_assoc; reflexivity.
Qed.

Lemma fetch_check_order_witness :
  fst (publish Sample.unfetchable (initial_state Sample.received))
    = Raise (ServiceError 404) ∧
  durable (snd (publish Sample.unfetchable (initial_state Sample.received)))
    = [(BySession, [SetStatus PROCESSING]); (BySession, [SetStatus FAILED])].
Proof.
  destruct (fetch_check_order Sample.unfetchable (initial_state Sample.received))
    as (t & Ht & _ & H).
  vm_compute in Ht. subst t.
  destruct H as [_ H]; [reflexivity|].
  apply (H (ServiceError 404)). reflexivity.
Defined.

(** C5 fails as stated.  When the zipball of a first release cannot be
    fetched, the draft has been requested from the records service by the
    time the test runs. *)
Lemma mutation_before_fetch_check :
  fst (publish Sample.unfetchable (initial_state Sample.received))
    = Raise (ServiceError 404) ∧
  before_check
    (trace (snd (publish Sample.unfetchable (initial_state Sample.received))))
    = [Req (SetStatus PROCESSING); SessionCommit; GetMetadata;
       Req (CreateDraft (user_identity_of 7)
              (draft_data (metadata Sample.descriptive Sample.citation)))] ∧
  checked_before_mutations
    (trace (snd (publish Sample.unfetchable (initial_state Sample.received))))
    = false.
Proof. vm_compute. repeat split. Qed.

(** * Further properties of the module *)

(** ** The metadata document *)

(** X1: the metadata document has exactly the keys of the default metadata
    and of the citation metadata: the update drops no key and invents
    none. *)
Theorem metadata_keys (dm cm : gmap string json) :
  dom (metadata dm cm) = dom dm ∪ dom cm.
Proof.
  unfold metadata. rewrite dict_update_union, dom_union_L.
  apply (comm_L (∪)).
Qed.

(** X2: every entry of the citation metadata is in the metadata document,
    and the document is the default metadata unchanged exactly when the
    default metadata already held every citation entry (in particular when
    there is no citation metadata at all). *)
Theorem metadata_citation_included (dm cm : gmap string json) :
  cm ⊆ metadata dm cm ∧ (metadata dm cm = dm ↔ cm ⊆ dm).
Proof.
  unfold metadata. rewrite dict_update_union. split.
  - apply map_union_subseteq_l.
  - split.
    + intros <-. apply map_union_subseteq_l.
    + apply map_subseteq_union.
Qed.

Example metadata_no_citation (dm : gmap string json) : metadata dm ∅ = dm.
Proof. unfold metadata. by rewrite dict_update_union, (left_id_L ∅ (∪)). Qed.

(** ** The URL and the badge of a record *)

(** X3: [record_url] reads the HTML link first: a record whose links have
    no "self_html" makes it raise [KeyError], even when the record has a
    DOI link that would have been returned. *)
Theorem record_url_missing_html (record : RecordItem) :
  links (data record) !! "self_html" = None →
  record_url record = Raise (KeyError "self_html").
Proof. intros H. unfold record_url, getitem. by rewrite H. Qed.

Lemma record_url_missing_html_witness :
  links (data Faults.doi_only) !! "doi" = Some "https://doi.org/10.1234/abc" ∧
  record_url Faults.doi_only = Raise (KeyError "self_html").
Proof.
  split; [reflexivity|].
  apply (record_url_missing_html Faults.doi_only). reflexivity.
Defined.

Lemma str_truthy_false (s : string) : str_truthy s = false ↔ s = "".
Proof. destruct s; simpl; split; congruence. Qed.

(** X4: for a record with an HTML link, [record_url] is that HTML link
    exactly when the DOI link is missing, is the empty string, or is the
    HTML link itself; an empty DOI link counts as no DOI link. *)
Theorem record_url_html_iff (record : RecordItem) (html : string) :
  links (data record) !! "self_html" = Some html →
  record_url record = Ok html ↔
  links (data record) !! "doi" = None ∨
  links (data record) !! "doi" = Some "" ∨
  links (data record) !! "doi" = Some html.
Proof.
  intros H. unfold record_url, getitem, or_else. rewrite H.
  destruct (links (data record) !! "doi") as [doi|]; [|by intuition].
  destruct (str_truthy doi) eqn:Hd.
  - split.
    + intros [= ->]. by right; right.
    + intros [?|[H1|H1]];
        [discriminate | by injection H1 as -> | by injection H1 as ->].
  - apply str_truthy_false in Hd as ->. split; [by right; left | done].
Qed.

Lemma record_url_html_iff_witness :
  record_url Faults.empty_doi = Ok "https://repo.example/records/e".
Proof.
  apply (record_url_html_iff Faults.empty_doi "https://repo.example/records/e");
    [reflexivity|].
  right; left. reflexivity.
Defined.

(** X5: the badge value is present exactly when the badge title is "DOI"
    and the record's pids hold a DOI with an identifier, and it is that
    identifier: a value never shows without its title. *)
Theorem badge_value_present (config : gmap string json) (record : RecordItem)
    (id : string) :
  badge_value config record = Some id ↔
  badge_title config = Some "DOI" ∧
  ∃ ps doi, pids (data record) = Some ps ∧ ps !! "doi" = Some doi ∧
            doi !! "identifier" = Some id.
Proof.
  unfold badge_value, badge_title.
  destruct (get_truthy (config !! "DATACITE_ENABLED")).
  - destruct (pids (data record)) as [ps|]; simpl.
    + destruct (ps !! "doi") as [doi|] eqn:Hdoi; simpl.
      * split; [by eauto 10|]. intros (_ & ps' & doi' & [= <-] & Hd & Hid).
        rewrite Hdoi in Hd. by injection Hd as <-.
      * rewrite lookup_empty. split; [done|].
        intros (_ & ps' & doi' & [= <-] & Hd & _). congruence.
    + rewrite lookup_empty. simpl. rewrite lookup_empty.
      split; [done|]. by intros (_ & ? & ? & ? & _).
  - split; [done|]. by intros [? _].
Qed.

(** ** More on resolving the record *)

(** X6: the recid lookup of [resolve_record] stands outside its [try]:
    when it raises, [resolve_record] raises the same exception, even a
    [RecordDeletedException], and the records service is not asked to read
    anything. *)
Theorem resolve_record_recid_error (w : World) (s : State) (u : UUID)
    (e : exn) :
  record_id (release_object s) = Some u →
  recid_by_uuid w (Some u) = Raise e →
  fst (resolve_record w s) = Raise e ∧
  trace (snd (resolve_record w s)) = trace s ++ [RetrieveRecid (Some u)].
Proof.
  intros Hlink Hpid.
  unfold resolve_record, bind, gets, query, try_except, lift, emit, ret.
  rewrite Hlink. simpl. rewrite Hpid. split; reflexivity.
Qed.

Lemma resolve_record_recid_error_witness :
  fst (resolve_record Faults.deleted_recid Sample.linked)
    = Raise RecordDeletedException ∧
  trace (snd (resolve_record Faults.deleted_recid Sample.linked))
    = [RetrieveRecid (Some 42)].
Proof.
  apply (resolve_record_recid_error Faults.deleted_recid Sample.linked 42);
    reflexivity.
Defined.

(** X7: only the deletion of the record is swallowed: when the read raises
    any other exception, [resolve_record] raises that exception, after the
    recid lookup and the one read. *)
Theorem resolve_record_read_error (w : World) (s : State) (u : UUID)
    (recid : PidValue) (e : exn) :
  record_id (release_object s) = Some u →
  recid_by_uuid w (Some u) = Ok recid →
  svc_read w system_identity recid = Raise e →
  e ≠ RecordDeletedException →
  fst (resolve_record w s) = Raise e ∧
  trace (snd (resolve_record w s)) =
    trace s ++ [RetrieveRecid (Some u); ReadRecord system_identity recid].
Proof.
  intros Hlink Hpid Hread Hne.
  unfold resolve_record, bind, gets, query, try_except, lift, emit, ret, raise.
  rewrite Hlink. simpl. rewrite Hpid. simpl. rewrite Hread.
  destruct e; try congruence; simpl; by rewrite <- app_assoc.
Qed.

Lemma resolve_record_read_error_witness :
  fst (resolve_record Faults.forbidden_read Sample.linked)
    = Raise (ServiceError 403) ∧
  trace (snd (resolve_record Faults.forbidden_read Sample.linked))
    = [RetrieveRecid (Some 42); ReadRecord system_identity "abc"].
Proof.
  apply (resolve_record_read_error Faults.forbidden_read Sample.linked 42 "abc");
    [reflexivity | reflexivity | reflexivity | discriminate].
Defined.

(** X8: [resolve_record] only reads.  In every run, whatever the
    collaborators answer, the release row, the pending changes and the
    committed batches are as before, and the only calls made are the recid
    lookup and a read under the system identity, at most one of each. *)
Theorem resolve_record_read_only (w : World) (s : State) :
  stored (snd (resolve_record w s)) = stored s ∧
  pending (snd (resolve_record w s)) = pending s ∧
  durable (snd (resolve_record w s)) = durable s ∧
  ∃ t, trace (snd (resolve_record w s)) = trace s ++ t ∧
       forallb is_lookup t = true ∧ (length t ≤ 2)%nat.
Proof.
  unfold resolve_record, bind, gets, query, try_except, lift, emit, ret, raise.
  destruct (record_id (release_object s)) as [u|]; cbn;
    [destruct (recid_by_uuid w (Some u)) as [recid|e]; cbn;
     [destruct (svc_read w system_identity recid) as [r|[]]; cbn|]|];
    (split; [reflexivity|]); (split; [reflexivity|]);
    (split; [reflexivity|]); rewrite <- ?app_assoc;
    first [ eexists; split; [reflexivity|]
          | exists []; rewrite app_nil_r; split; [reflexivity|] ];
    (split; [reflexivity | simpl; lia]).
Qed.

(** When the record is there, [resolve_record] returns what the
    records service read for the recid of the release's linkage, and the
    read is made under the system identity, not under the identity of the
    release's user. *)
Theorem resolve_record_found (w : World) (s : State) (u : UUID)
    (recid : PidValue) (r : RecordItem) :
  record_id (release_object s) = Some u →
  recid_by_uuid w (Some u) = Ok recid →
  svc_read w system_identity recid = Ok r →
  fst (resolve_record w s) = Ok (Some r) ∧
  trace (snd (resolve_record w s)) =
    trace s ++ [RetrieveRecid (Some u); ReadRecord system_identity recid].
Proof.
  intros Hlink Hpid Hread.
  unfold resolve_record, bind, gets, query, try_except, lift, emit, ret.
  rewrite Hlink. simpl. rewrite Hpid. simpl. rewrite Hread. simpl.
  by rewrite <- app_assoc.
Qed.

Lemma resolve_record_found_witness :
  fst (resolve_record Sample.first Sample.linked)
    = Ok (Some Sample.published_record) ∧
  trace (snd (resolve_record Sample.first Sample.linked))
    = [RetrieveRecid (Some 42); ReadRecord system_identity "abc"].
Proof.
  apply (resolve_record_found Sample.first Sample.linked 42 "abc"
           Sample.published_record); reflexivity.
Defined.

(** ** More on publishing *)

(** X9: every run of [publish] ends in one of two states.  The session
    holds no pending change, the database has gained exactly two batches,
    the first being the directly committed PROCESSING marker, and the
    stored status is PUBLISHED when [publish] returned and FAILED when it
    raised; it is never left at PROCESSING. *)
Theorem publish_terminal_status (w : World) (s : State) :
  pending (snd (publish w s)) = [] ∧
  stored (snd (publish w s)) = stored s ∧
  (∃ batch, durable (snd (publish w s)) = durable s ++
      [(BySession, pending s ++ [SetStatus PROCESSING]); batch]) ∧
  status (db_release (snd (publish w s))) = terminal_status (fst (publish w s)).
Proof.
  destruct s as [st pe du tr]. py_run; py_unfold;
    cbn [fst snd terminal_status];
    (split; [reflexivity|]); (split; [reflexivity|]);
    (split; [rewrite <- app_assoc; eexists; reflexivity|]);
    unfold db_release, committed; cbn [stored durable];
    rewrite !map_app, !concat_app, !foldl_app; cbn;
    rewrite ?app_nil_r, ?foldl_app; reflexivity.
Qed.

(** X10: every run of [publish] begins by writing PROCESSING and committing
    it directly, before the metadata is read or any service is called.  A
    run that raises ends with the rollback of the unit of work, the FAILED
    write and its direct commit, in this order.  In between there is no
    direct commit, no rollback and no status write but PUBLISHED; a run that
    returns has no rollback and no FAILED write at all. *)
Theorem publish_trace_shape (w : World) (s : State) :
  ∃ body,
    trace (snd (publish w s)) =
      trace s ++ [Req (SetStatus PROCESSING); SessionCommit; GetMetadata] ++
      body ++ failure_epilogue (fst (publish w s)) ∧
    existsb is_marker body = false.
Proof.
  destruct s as [st pe du tr]. py_run; py_unfold; cbn [fst snd];
    rewrite <- ?app_assoc; cbn [app failure_epilogue];
    match goal with
    | |- ∃ body, _ ++ ?l = _ ++ _ :: _ :: _ :: body ++ ?ep ∧ _ =>
        exists (take (length l - 3 - length ep) (drop 3 l))
    end; cbn [firstn skipn length Nat.sub app];
    split; reflexivity.
Qed.

(** X11: [publish] acts as the user of the release and on one file: in
    every run, each call of the records service and of the files service
    is made under [self.user_identity], never under the system identity,
    and each call of the files service names the one key
    [self.release_file_name]. *)
Theorem publish_acts_as_user (w : World) (s : State) :
  ∃ t, trace (snd (publish w s)) = trace s ++ t ∧
       Forall (λ e, (∀ i, request_identity e = Some i → i = user_identity w) ∧
                    (∀ ks, request_keys e = Some ks →
                           ks = [release_file_name w])) t.
Proof.
  destruct s as [st pe du tr]. py_run; py_unfold; cbn [snd];
    rewrite <- ?app_assoc; cbn [app]; eexists; (split; [reflexivity|]);
    each_event ltac:(cbn [request_identity request_keys];
                     split; intros ? [= <-]; reflexivity).
Qed.

(** X12: the policy of a draft is not open to the metadata: in every run,
    the data carried by a creation or an update of a draft is the merged
    metadata document with record access public, files access public and
    files enabled. *)
Theorem publish_data_policy (w : World) (s : State) :
  ∃ t, trace (snd (publish w s)) = trace s ++ t ∧
       Forall (λ e, ∀ d, request_data e = Some d →
                 (∃ dm cm, default_metadata w = Ok dm ∧
                           citation_metadata w = Ok cm ∧
                           data_metadata d = metadata dm cm) ∧
                 access_record d = "public" ∧ access_files d = "public" ∧
                 files_enabled d = true) t.
Proof.
  destruct s as [st pe du tr]. py_run; py_unfold; cbn [snd];
    rewrite <- ?app_assoc; cbn [app]; eexists; (split; [reflexivity|]);
    each_event ltac:(cbn [request_data]; intros ? [= <-];
                     repeat split; try reflexivity;
                     eexists _, _; repeat split).
Qed.

(** X13: the zipball stream is opened at most once in a run of [publish],
    and it is closed exactly once when it was opened, also when writing the
    file content raises; when opening it raises there is nothing to
    close. *)
Theorem publish_zipball_scope (w : World) (s : State) :
  ∃ t, trace (snd (publish w s)) = trace s ++ t ∧
       (length (List.filter is_fetch t) ≤ 1)%nat ∧
       length (List.filter is_close t) =
         if existsb is_fetch t
         then match zipball_fetch w with Ok _ => 1 | Raise _ => 0 end
         else 0.
Proof.
  destruct s as [st pe du tr]. py_run; py_unfold; cbn [snd];
    rewrite <- ?app_assoc; cbn [app]; eexists; (split; [reflexivity|]);
    cbn [List.filter is_fetch is_close existsb orb length];
    (split; [lia | reflexivity]).
Qed.

(** X14: when the metadata of the release cannot be obtained, whether the
    default or the citation metadata raises, [publish] raises that
    exception without having called the records service or the files
    service at all: the whole run is the PROCESSING marker, the reading of
    the metadata, the rollback and the FAILED marker. *)
Theorem publish_metadata_failure (w : World) (s : State) (e : exn) :
  default_metadata w = Raise e ∨
  (∃ dm, default_metadata w = Ok dm ∧ citation_metadata w = Raise e) →
  fst (publish w s) = Raise e ∧
  trace (snd (publish w s)) = trace s ++
    [Req (SetStatus PROCESSING); SessionCommit; GetMetadata;
     UowRollback; Req (SetStatus FAILED); SessionCommit].
Proof.
  destruct s as [st pe du tr]. intros [Hd|(dm & Hd & Hc)]; py_unfold;
    rewrite Hd, ?Hc; cbn [fst snd]; rewrite <- ?app_assoc; split; reflexivity.
Qed.

Lemma publish_metadata_failure_witness :
  fst (publish Faults.no_metadata (initial_state Sample.received))
    = Raise (ServiceError 422) ∧
  trace (snd (publish Faults.no_metadata (initial_state Sample.received))) =
    [Req (SetStatus PROCESSING); SessionCommit; GetMetadata;
     UowRollback; Req (SetStatus FAILED); SessionCommit].
Proof.
  apply (publish_metadata_failure Faults.no_metadata
           (initial_state Sample.received)).
  left. reflexivity.
Defined.

(** X15: a later release whose predecessor cannot be resolved is not
    published as a fresh record.  When the repository has a published
    release and the recid lookup for its record id raises (as when that
    release lost its linkage), [publish] raises that exception after the
    lookup, with no draft created and no new version requested. *)
Theorem publish_recid_failure (w : World) (s : State)
    (dm cm : gmap string json) (latest : ReleaseObject) (e : exn) :
  default_metadata w = Ok dm →
  citation_metadata w = Ok cm →
  latest_release (releases w) PUBLISHED = Some latest →
  recid_by_uuid w (record_id latest) = Raise e →
  fst (publish w s) = Raise e ∧
  trace (snd (publish w s)) = trace s ++
    [Req (SetStatus PROCESSING); SessionCommit; GetMetadata;
     RetrieveRecid (record_id latest);
     UowRollback; Req (SetStatus FAILED); SessionCommit].
Proof.
  destruct s as [st pe du tr]. intros Hd Hc Hl Hr. py_unfold.
  rewrite Hd, Hc, Hl. cbn iota beta. rewrite Hr. cbn [fst snd].
  rewrite <- ?app_assoc. split; reflexivity.
Qed.

Lemma publish_recid_failure_witness :
  fst (publish Faults.no_recid (initial_state Sample.received))
    = Raise (ServiceError 404) ∧
  trace (snd (publish Faults.no_recid (initial_state Sample.received))) =
    [Req (SetStatus PROCESSING); SessionCommit; GetMetadata;
     RetrieveRecid (Some 41);
     UowRollback; Req (SetStatus FAILED); SessionCommit].
Proof.
  apply (publish_recid_failure Faults.no_recid (initial_state Sample.received)
           Sample.descriptive Sample.citation
           {| status := PUBLISHED; record_id := Some 41 |});
    reflexivity.
Defined.

(** X16: [process_release] adds one thing to [publish]: it returns or
    raises exactly what [publish] does and leaves the same release row,
    pending changes and committed batches, and it logs the exception once
    when [publish] raised and logs nothing when it returned. *)
Theorem process_release_logs (w : World) (s : State) :
  fst (process_release w s) = fst (publish w s) ∧
  stored (snd (process_release w s)) = stored (snd (publish w s)) ∧
  pending (snd (process_release w s)) = pending (snd (publish w s)) ∧
  durable (snd (process_release w s)) = durable (snd (publish w s)) ∧
  trace (snd (process_release w s)) =
    trace (snd (publish w s)) ++
    match fst (publish w s) with
    | Ok _ => []
    | Raise e => [LogException e]
    end.
Proof.
  unfold process_release, try_except, bind, ret, emit, raise.
  destruct (publish w s) as [[r|e] s1];
    cbn [fst snd stored pending durable trace].
  - by rewrite app_nil_r.
  - done.
Qed.

(** X17: [_upload_files_to_draft] stages and never commits.  In every run
    it leaves the release row and the committed batches alone; when it
    returns, the session has gained exactly the file slot and the file
    content of the one key [self.release_file_name] in the given draft,
    with the bytes the zipball stream gave; when it raises, it has gained
    nothing or the file slot alone. *)
Theorem upload_stages_one_file (w : World) (draft : Draft) (s : State) :
  stored (snd (_upload_files_to_draft w draft s)) = stored s ∧
  durable (snd (_upload_files_to_draft w draft s)) = durable s ∧
  ∃ staged,
    pending (snd (_upload_files_to_draft w draft s)) = pending s ++ staged ∧
    let slot := InitFiles (user_identity w) (draft_id draft)
                          [release_file_name w] in
    if returned (fst (_upload_files_to_draft w draft s))
    then ∃ stream, zipball_fetch w = Ok stream ∧
                   staged = [slot;
                             SetFileContent (user_identity w) (draft_id draft)
                               (release_file_name w) stream]
    else staged = [] ∨ staged = [slot].
Proof.
  destruct s as [st pe du tr]. py_run; py_unfold;
    cbn [fst snd returned]; (split; [reflexivity|]); (split; [reflexivity|]);
    first [ exists []; rewrite app_nil_r; split; [reflexivity|]
          | rewrite <- ?app_assoc; eexists; split; [reflexivity|] ];
    cbv zeta; eauto.
Qed.

(** ** Publishing, then resolving *)

Lemma publish_ok_row (w : World) (s s' : State) (r : RecordItem) :
  publish w s = (Ok r, s') →
  release_object s' = {| status := PUBLISHED; record_id := Some (model_id r) |}.
Proof.
  destruct s as [st pe du tr]. py_run; intros [= <- <-];
    unfold release_object, db_release, committed;
    cbn [stored durable pending foldl];
    rewrite !map_app, !concat_app, !foldl_app; cbn;
    rewrite ?app_nil_r, ?foldl_app; reflexivity.
Qed.

Lemma publish_raise_row (w : World) (s s' : State) (e : exn) :
  publish w s = (Raise e, s') →
  release_object s' = {| status := FAILED;
                         record_id := record_id (release_object s) |}.
Proof.
  destruct s as [st pe du tr]. py_run; intros [= <- <-];
    unfold release_object, db_release, committed;
    cbn [stored durable pending foldl];
    rewrite !map_app, !concat_app, !foldl_app; cbn;
    rewrite ?app_nil_r, ?foldl_app; reflexivity.
Qed.

(** X18: the linkage [publish] writes is the one [resolve_record] follows.
    After a [publish] that returned record [r], [resolve_record] looks up
    the recid of [r]'s own model id and returns what the records service
    reads for it. *)
Theorem publish_then_resolve (w : World) (s s' : State) (r r' : RecordItem)
    (recid : PidValue) :
  publish w s = (Ok r, s') →
  recid_by_uuid w (Some (model_id r)) = Ok recid →
  svc_read w system_identity recid = Ok r' →
  fst (resolve_record w s') = Ok (Some r') ∧
  trace (snd (resolve_record w s')) =
    trace s' ++ [RetrieveRecid (Some (model_id r));
                 ReadRecord system_identity recid].
Proof.
  intros Hrun Hpid Hread. apply publish_ok_row in Hrun.
  unfold resolve_record, bind, gets, query, try_except, lift, emit, ret.
  rewrite Hrun. simpl. rewrite Hpid. simpl. rewrite Hread. simpl.
  by rewrite <- app_assoc.
Qed.

Lemma publish_then_resolve_witness :
  fst (resolve_record Sample.first
         (snd (publish Sample.first (initial_state Sample.received))))
    = Ok (Some Sample.published_record).
Proof.
  apply (publish_then_resolve Sample.first (initial_state Sample.received)
           (snd (publish Sample.first (initial_state Sample.received)))
           Sample.published_record Sample.published_record "abc").
  - vm_compute. reflexivity.
  - reflexivity.
  - reflexivity.
Defined.

(** X19: a [publish] that raised leaves the linkage of the release as it
    was, so [resolve_record] answers afterwards what it answered before:
    absent for a release that was never published, the earlier record for
    one that was. *)
Theorem failed_publish_keeps_resolution (w : World) (s s' : State) (e : exn) :
  publish w s = (Raise e, s') →
  fst (resolve_record w s') = fst (resolve_record w s).
Proof.
  intros Hrun. apply publish_raise_row in Hrun.
  unfold resolve_record, bind, gets, query, try_except, lift, emit, ret.
  rewrite Hrun. cbn [record_id].
  destruct (record_id (release_object s)) as [u|]; [|reflexivity].
  cbn. destruct (recid_by_uuid w (Some u)) as [recid|e1]; [|reflexivity].
  cbn. destruct (svc_read w system_identity recid) as [r1|[]]; reflexivity.
Qed.

Lemma failed_publish_keeps_resolution_witness :
  fst (resolve_record Sample.unfetchable
         (snd (publish Sample.unfetchable Sample.linked)))
    = Ok (Some Sample.published_record).
Proof.
  rewrite (failed_publish_keeps_resolution Sample.unfetchable Sample.linked
             (snd (publish Sample.unfetchable Sample.linked))
             (ServiceError 404)).
  - reflexivity.
  - vm_compute. reflexivity.
Defined.
